(** * ModelBase (model_api/cpp/models/src/model_base.cpp)

    A shallow embedding of the four member functions of [ModelBase]:
    [load], [prepareModel], [getInputLayout] and [infer].

    The object's fields, the adapter objects reachable through
    [std::shared_ptr], the [slog] output and a record of the calls made to
    collaborators are threaded through a state-and-exception monad.  A C++
    exception aborts the rest of the computation but keeps every mutation made
    before it was thrown.  The statements below speak about what a run does
    to the fields, the adapter objects and the log; the record of calls only
    adds the order. *)

From Stdlib Require Import ZArith NArith String List.
From stdpp Require Import base option list gmap strings.

Open Scope string_scope.

(** ** utils/slog.hpp: one entry per line closed by [slog::endl] *)
Module Slog.
Inductive level := info | warn.

Record line := Line { severity : level; text : string }.

Definition is_warn (l : line) : bool :=
  match severity l with warn => true | info => false end.
End Slog.

(** ** The OpenVINO values the file handles *)
Module Ov.
(** [ov::Shape]: a vector of [size_t]. *)
Definition Shape := list N.

(** [ov::Layout]: the named dimensions in order; the default-constructed
    layout has none and is the one [empty()] recognises. *)
Record Layout := MkLayout { dims : list string }.

Definition Layout_default : Layout := MkLayout [].

Definition empty (l : Layout) : bool :=
  match dims l with [] => true | _ :: _ => false end.

(** [ov::Output<ov::Node>], as seen through [get_shape], [get_any_name] and
    [ov::layout::get_layout]. *)
Record Output := MkOutput {
  get_shape : Shape;
  get_any_name : string;
  get_layout : Layout
}.

(** [ov::Model], as far as this file looks into it. *)
Record Model := MkModel {
  get_friendly_name : string;
  inputs : list Output;
  outputs : list Output;
  get_batch : N
}.

(** Modelled from the spec: [ov::set_batch(model, n)] belongs to the OpenVINO
    runtime, not to this repository; it "forces the batch dimension" of the
    model to [n] and leaves the rest of the model alone. *)
Definition set_batch (m : Model) (n : N) : Model :=
  {| get_friendly_name := get_friendly_name m;
     inputs := inputs m;
     outputs := outputs m;
     get_batch := n |}.

(** [ov::Tensor] *)
Record Tensor := MkTensor { tensor_shape : Shape; tensor_data : list Z }.
End Ov.
Import Ov.

(** ** Outcomes *)

(** The ways a call can end without a value.  The first six are the error
    kinds of the specification; [NullDereference] is a call through a null
    [shared_ptr]. *)
Inductive Error :=
  | ModelReadError
  | CompilationError
  | UndefinedLayoutError
  | PreprocessError
  | InferenceError
  | PostprocessError
  | NullDereference.

Inductive Res (A : Type) :=
  | Ok (a : A)
  | Throw (e : Error).
Arguments Ok {A} a.
Arguments Throw {A} e.

(** Modelled from the spec: the declaration of [config] (utils/config_factory.h)
    is not in model_base.cpp; [compilationConfig] is "a mapping from option
    name to value passed opaquely to the execution capability". *)
Record ModelConfig := MkModelConfig {
  compilationConfig : gmap string string
}.

(** Modelled from the spec: the class declaration (models/model_base.h) is
    not in model_base.cpp.  These are the data members that file reads or
    writes, with the types their uses show: [inferenceAdapter] is a
    [shared_ptr] ([None] is null, [Some p] points to the adapter object stored
    at [p]); [inputsLayouts] is the "mapping from input-tensor name to a
    layout descriptor", used through [empty], [size], [begin] and
    [operator[]]. *)
Record ModelBase := MkModelBase {
  inferenceAdapter : option positive;
  modelFile : string;
  config : ModelConfig;
  inputsLayouts : gmap string Layout
}.

(** ** Collaborators declared outside model_base.cpp *)

(** [ov::Core::read_model], [logBasicModelInfo] and [getLayoutFromShape]
    (utils), [ov::Layout::to_string].  Their bodies are not part of this file;
    they are parameters of the development. *)
Record Runtime := MkRuntime {
  read_model : string -> Res Model;
  logBasicModelInfo : Model -> list string;
  getLayoutFromShape : Shape -> Layout;
  to_string : Layout -> string
}.

(** The abstract class [InferenceAdapter] with the two virtual functions
    called here, and the constructor of [OpenVINOInferenceAdapter].  An
    adapter object has a state of type [S]; a throwing call may still have
    changed it. *)
Module InferenceAdapter.
Record class (S : Type) := Class {
  OpenVINOInferenceAdapter : S;
  loadModel : Model -> string -> gmap string string -> S -> Res unit * S;
  infer : gmap string Tensor -> S -> Res (gmap string Tensor) * S
}.
Arguments Class {S}.
Arguments OpenVINOInferenceAdapter {S}.
Arguments loadModel {S}.
Arguments infer {S}.
End InferenceAdapter.

Section Definitions.
(** [InputData] and [InternalModelData] are the polymorphic bases of
    models/input_data.h and models/internal_model_data.h; [ResultBase] holds
    the fields of the base class of every result (models/results.h) and
    [Derived] those a task-specific result class adds. *)
Context {InputData InternalModelData ResultBase Derived AdapterState : Type}.

(** [InferenceInput] and the raw outputs: [std::map<std::string, ov::Tensor>] *)
Definition InferenceInput := gmap string Tensor.

(** [struct InferenceResult : ResultBase] *)
Record InferenceResult := MkInferenceResult {
  result_base : ResultBase;
  internalModelData : option InternalModelData;
  outputsData : gmap string Tensor
}.

(** The object behind the [std::unique_ptr<ResultBase>] that [postprocess]
    creates: the base subobject and the fields of the dynamic type. *)
Record ResultObject := MkResultObject {
  base : ResultBase;
  derived : Derived
}.

(** [*retVal = static_cast<ResultBase&>(result)]: the copy assignment of
    [ResultBase] overwrites the base subobject and nothing else. *)
Definition assign_base (retVal : ResultObject) (result : InferenceResult)
  : ResultObject :=
  {| base := result_base result; derived := derived retVal |}.

(** The calls [prepareModel] and [infer] make to their collaborators, in
    program order.  The two adapter calls are recorded by [via], at the moment
    the adapter object at [adapter] is entered; a call through a null member
    enters no adapter and records nothing. *)
Inductive Call :=
  | CallReadModel (file : string)
  | CallPrepareInputsOutputs (m : Model)
  | CallSetBatch (m : Model) (n : N)
  | CallLoadModel (adapter : positive) (m : Model) (device : string)
      (cfg : gmap string string)
  | CallPreprocess (data : InputData)
  | CallAdapterInfer (adapter : positive) (tensors : InferenceInput)
  | CallPostprocess (r : InferenceResult).

Definition is_adapter_infer (c : Call) : bool :=
  match c with CallAdapterInfer _ _ => true | _ => false end.

Record World := MkWorld {
  self : ModelBase;
  heap : gmap positive AdapterState;
  log : list Slog.line;
  calls : list Call
}.

(** *** The monad *)
Definition M (A : Type) : Type := World -> Res A * World.

Definition ret {A} (a : A) : M A := fun w => (Ok a, w).

Definition bind {A B} (c : M A) (k : A -> M B) : M B :=
  fun w =>
    match c w with
    | (Ok a, w') => k a w'
    | (Throw e, w') => (Throw e, w')
    end.

Definition throw {A} (e : Error) : M A := fun w => (Throw e, w).

Definition lift {A} (r : Res A) : M A := fun w => (r, w).

Definition gets {A} (f : ModelBase -> A) : M A :=
  fun w => (Ok (f (self w)), w).

Definition put_self (s : ModelBase) : M unit :=
  fun w => (Ok tt, {| self := s; heap := heap w; log := log w;
                      calls := calls w |}).

Definition emit (ls : list Slog.line) : M unit :=
  fun w => (Ok tt, {| self := self w; heap := heap w; log := log w ++ ls;
                      calls := calls w |}).

Definition call (c : Call) : M unit :=
  fun w => (Ok tt, {| self := self w; heap := heap w; log := log w;
                      calls := calls w ++ [c] |}).

Notation "x <- c ;; k" := (bind c (fun x => k))
  (at level 100, c at next level, right associativity).
Notation "c ;;; k" := (bind c (fun _ => k))
  (at level 100, right associativity).

(** [slog::info << ... << slog::endl] and [slog::warn << ... << slog::endl] *)
Definition slog_info (s : string) : M unit := emit [Slog.Line Slog.info s].
Definition slog_warn (s : string) : M unit := emit [Slog.Line Slog.warn s].

(** *** The virtual functions a task-specific subclass overrides *)

(** A hook is code of the subclass: it runs on the object's own fields, may
    write log lines, and may throw after having changed the fields. *)
Definition Hook (A : Type) : Type :=
  ModelBase -> Res A * ModelBase * list Slog.line.

(** [preprocess] returns a [shared_ptr] and [postprocess] a [unique_ptr]:
    either may be null ([None]).  [preprocess] also fills the [InferenceInput]
    it is given by reference, and [postprocess] receives the
    [InferenceResult] by reference and may write to it. *)
Record Task := MkTask {
  prepareInputsOutputs : Model -> Hook Model;
  preprocess : InputData -> InferenceInput ->
               Hook (option InternalModelData * InferenceInput);
  postprocess : InferenceResult ->
                Hook (option ResultObject * InferenceResult)
}.

Definition run_hook {A} (h : Hook A) : M A :=
  fun w =>
    match h (self w) with
    | (r, s', ls) =>
        (r, {| self := s'; heap := heap w; log := log w ++ ls;
               calls := calls w |})
    end.

(** *** Calls through [inferenceAdapter->]

    A call through a pointer that designates no adapter object aborts at once.
    Otherwise the member function [f] of the object at [l] runs on that
    object, and the call is recorded as [c l]. *)
Definition via {A} (p : option positive) (c : positive -> Call)
    (f : AdapterState -> Res A * AdapterState) : M A :=
  fun w =>
    match p with
    | None => (Throw NullDereference, w)
    | Some l =>
        match heap w !! l with
        | None => (Throw NullDereference, w)
        | Some a =>
            match f a with
            | (r, a') =>
                (r, {| self := self w; heap := <[l := a']> (heap w);
                       log := log w; calls := calls w ++ [c l] |})
            end
        end
    end.

(** [std::make_shared<T>()]: a new object at an address not in use. *)
Definition make_shared (a : AdapterState) : M positive :=
  fun w =>
    let l := fresh (dom (heap w)) in
    (Ok l, {| self := self w; heap := <[l := a]> (heap w); log := log w;
              calls := calls w |}).

(** *** [std::map] members used on [inputsLayouts] *)

(** [m.begin()->second]; only evaluated on a map of size 1, where the first
    entry is the only one.  (On an empty map the C++ expression has no
    defined value; the model answers the default layout there.) *)
Definition begin_second (m : gmap string Layout) : Layout :=
  match map_to_list m with
  | (_, v) :: _ => v
  | [] => Layout_default
  end.

(** [inputsLayouts[key]]: [std::map::operator[]] returns the mapped value and,
    when the key is absent, first inserts a value-initialised one. *)
Definition inputsLayouts_subscript (key : string) : M Layout :=
  m <- gets inputsLayouts ;;
  match m !! key with
  | Some v => ret v
  | None =>
      s <- gets id ;;
      put_self {| inferenceAdapter := inferenceAdapter s;
                  modelFile := modelFile s;
                  config := config s;
                  inputsLayouts := <[key := Layout_default]> m |} ;;;
      ret Layout_default
  end.

(** [inferenceAdapter = p].  The assignment also releases the adapter the
    member designated before, which destroys that object when nothing else
    owns it.  Ownership is not part of this model: the heap keeps the last
    state of every adapter object, also of one that may have been destroyed,
    and no statement below speaks about the object the member designated
    before the assignment. *)
Definition set_inferenceAdapter (p : option positive) : M unit :=
  s <- gets id ;;
  put_self {| inferenceAdapter := p;
              modelFile := modelFile s;
              config := config s;
              inputsLayouts := inputsLayouts s |}.

(** *** The member functions of model_base.cpp *)
Section Members.
Variable rt : Runtime.
Variable adapters : InferenceAdapter.class AdapterState.
Variable task : Task.
(** The fields of a default-constructed [ResultBase]. *)
Variable ResultBase_default : ResultBase.

(** [ov::Layout ModelBase::getInputLayout(const ov::Output<ov::Node>& input)] *)
Definition getInputLayout (input : Output) : M Layout :=
  let inputShape := get_shape input in
  let layout := get_layout input in
  if empty layout then
    m <- gets inputsLayouts ;;
    if bool_decide (size m = 0) then
      let layout := getLayoutFromShape rt inputShape in
      slog_warn ("Automatically detected layout '" ++ to_string rt layout
                 ++ "' for input '" ++ get_any_name input
                 ++ "' will be used.") ;;;
      ret layout
    else if bool_decide (size m = 1) then
      ret (begin_second m)
    else
      inputsLayouts_subscript (get_any_name input)
  else
    ret layout.

(** [void ModelBase::prepareModel(ov::Core& core)] *)
Definition prepareModel : M unit :=
  file <- gets modelFile ;;
  slog_info ("Reading model " ++ file) ;;;
  call (CallReadModel file) ;;;
  model <- lift (read_model rt file) ;;
  emit (map (Slog.Line Slog.info) (logBasicModelInfo rt model)) ;;;
  call (CallPrepareInputsOutputs model) ;;;
  model <- run_hook (prepareInputsOutputs task model) ;;
  call (CallSetBatch model 1) ;;;
  let model := set_batch model 1 in
  p <- gets inferenceAdapter ;;
  cfg <- gets (fun s => compilationConfig (config s)) ;;
  via p (fun l => CallLoadModel l model "AUTO" cfg)
    (InferenceAdapter.loadModel adapters model "AUTO" cfg).

(** [void ModelBase::load(std::shared_ptr<InferenceAdapter> adapter)] *)
Definition load (adapter : option positive) : M unit :=
  match adapter with
  | None =>
      p <- make_shared (InferenceAdapter.OpenVINOInferenceAdapter adapters) ;;
      set_inferenceAdapter (Some p)
  | Some _ => set_inferenceAdapter adapter
  end ;;;
  (* auto core = ov::Core(); the core is the [Runtime] parameter *)
  prepareModel.

(** [std::unique_ptr<ResultBase> ModelBase::infer(const InputData& inputData)] *)
Definition infer (inputData : InputData) : M ResultObject :=
  let inputs : InferenceInput := ∅ in
  let result := {| result_base := ResultBase_default;
                   internalModelData := None;
                   outputsData := ∅ |} in
  call (CallPreprocess inputData) ;;;
  pre <- run_hook (preprocess task inputData inputs) ;;
  let internalModelData := fst pre in
  let inputs := snd pre in
  p <- gets inferenceAdapter ;;
  out <- via p (fun l => CallAdapterInfer l inputs)
           (InferenceAdapter.infer adapters inputs) ;;
  let result := {| result_base := result_base result;
                   internalModelData := internalModelData;
                   outputsData := out |} in
  call (CallPostprocess result) ;;;
  post <- run_hook (postprocess task result) ;;
  let retVal := fst post in
  let result := snd post in
  (* *retVal = static_cast<ResultBase&>(result); return retVal; *)
  match retVal with
  | None => throw NullDereference
  | Some obj => ret (assign_base obj result)
  end.

End Members.

(** The four calls of a complete [prepareModel], in program order: [m0] is
    the model read from [file], [m1] the model as the hook left it. *)
Definition prepareModel_steps (file : string) (m0 m1 : Model)
    (l : positive) (cfg : gmap string string) : list Call :=
  [CallReadModel file; CallPrepareInputsOutputs m0; CallSetBatch m1 1;
   CallLoadModel l (set_batch m1 1) "AUTO" cfg].

(** The [InferenceResult] handed to [postprocess]. *)
Definition raw_result (b : ResultBase) (imd : option InternalModelData)
    (out : gmap string Tensor) : InferenceResult :=
  {| result_base := b; internalModelData := imd; outputsData := out |}.

(** The adapter object a (possibly null) pointer designates. *)
Definition deref (p : option positive) (h : gmap positive AdapterState)
  : option AdapterState :=
  match p with Some l => h !! l | None => None end.

(** What [infer] returns once [postprocess] has returned [post]: line 85
    assigns through the pointer, which aborts when the pointer is null. *)
Definition returned (post : option ResultObject * InferenceResult)
  : Res ResultObject :=
  match fst post with
  | Some obj => Ok (assign_base obj (snd post))
  | None => Throw NullDereference
  end.

(** An adapter class that counts: every object carries, next to its state,
    the number of times its [infer] has been entered. *)
Definition counting (c : InferenceAdapter.class AdapterState)
  : InferenceAdapter.class (AdapterState * nat) :=
  {| InferenceAdapter.OpenVINOInferenceAdapter :=
       (InferenceAdapter.OpenVINOInferenceAdapter c, 0);
     InferenceAdapter.loadModel := fun m device cfg st =>
       match InferenceAdapter.loadModel c m device cfg (fst st) with
       | (r, a') => (r, (a', snd st))
       end;
     InferenceAdapter.infer := fun tensors st =>
       match InferenceAdapter.infer c tensors (fst st) with
       | (r, a') => (r, (a', S (snd st)))
       end |}.

(** The world after the first statement of [load] (lines 32-36): the member
    holds the given adapter, or a newly made default adapter when the argument
    is null. *)
Definition adopted (adapters : InferenceAdapter.class AdapterState)
    (adapter : option positive) (w : World) : World :=
  match adapter with
  | Some _ =>
      {| self := {| inferenceAdapter := adapter;
                    modelFile := modelFile (self w);
                    config := config (self w);
                    inputsLayouts := inputsLayouts (self w) |};
         heap := heap w; log := log w; calls := calls w |}
  | None =>
      let l := fresh (dom (heap w)) in
      {| self := {| inferenceAdapter := Some l;
                    modelFile := modelFile (self w);
                    config := config (self w);
                    inputsLayouts := inputsLayouts (self w) |};
         heap := <[l := InferenceAdapter.OpenVINOInferenceAdapter adapters]>
                   (heap w);
         log := log w; calls := calls w |}
  end.
End Definitions.

(** ** A concrete instance: a classification-like task on a toy runtime *)

Definition NCHW : Layout := MkLayout ["N"; "C"; "H"; "W"].
Definition NHWC : Layout := MkLayout ["N"; "H"; "W"; "C"].
Definition NC : Layout := MkLayout ["N"; "C"].

Definition demo_input (name : string) : Output :=
  {| get_shape := [1; 3; 224; 224]%N; get_any_name := name;
     get_layout := Layout_default |}.

Definition demo_model : Model :=
  {| get_friendly_name := "net";
     inputs := [demo_input "data"];
     outputs := [{| get_shape := [8; 1000]%N; get_any_name := "prob";
                    get_layout := Layout_default |}];
     get_batch := 8 |}.

Definition demo_runtime : Runtime :=
  {| read_model := fun file =>
       if String.eqb file "net.xml" then Ok demo_model
       else Throw ModelReadError;
     logBasicModelInfo := fun m => ["Model name: " ++ get_friendly_name m];
     getLayoutFromShape := fun shape =>
       match shape with
       | [_; _] => NC
       | [_; c; _; _] => if (c <=? 4)%N then NCHW else NHWC
       | _ => NCHW
       end;
     to_string := fun l => String.concat "," (dims l) |}.

(** The adapter state is the model it was asked to compile, if any. *)
Definition demo_adapters : InferenceAdapter.class (option Model) :=
  {| InferenceAdapter.OpenVINOInferenceAdapter := None;
     InferenceAdapter.loadModel := fun m device cfg _ => (Ok tt, Some m);
     InferenceAdapter.infer := fun tensors st =>
       match st with
       | Some _ => (Ok tensors, st)
       | None => (Throw InferenceError, st)
       end |}.

Definition demo_tensor : Tensor :=
  {| tensor_shape := [1; 2]%N; tensor_data := [3; 4]%Z |}.

(** Input data is a file name, the internal model data a resize ratio, the
    base of a result a frame id and the task-specific part a list of class
    ids. *)
Definition demo_task : @Task string nat Z (list nat) :=
  {| prepareInputsOutputs := fun m s => (Ok (set_batch m 4), s, []);
     preprocess := fun data tensors s =>
       if String.eqb data "" then (Throw PreprocessError, s, [])
       else (Ok (Some 2, <["data" := demo_tensor]> tensors), s, []);
     postprocess := fun r s =>
       (Ok (Some {| base := 7%Z;
                    derived := [length (map_to_list (outputsData r))] |},
            r), s, []) |}.

Definition demo_self (layouts : gmap string Layout) (file : string)
  : ModelBase :=
  {| inferenceAdapter := None; modelFile := file;
     config := {| compilationConfig := {["PERFORMANCE_HINT" := "LATENCY"]} |};
     inputsLayouts := layouts |}.

(** A world before [load]: the member is null, and the caller has made one
    adapter object, at address 1. *)
Definition demo_world (layouts : gmap string Layout) (file : string)
  : @World string nat Z (option Model) :=
  {| self := demo_self layouts file; heap := {[1%positive := None]};
     log := []; calls := [] |}.

Definition two_layouts : gmap string Layout :=
  <["a" := NCHW]> (<["b" := NHWC]> ∅).

(** The same world once the caller's adapter is stored in the member. *)
Definition demo_ready : @World string nat Z (option Model) :=
  {| self := {| inferenceAdapter := Some 1%positive; modelFile := "net.xml";
                config := config (demo_self ∅ "net.xml");
                inputsLayouts := ∅ |};
     heap := {[1%positive := None]}; log := []; calls := [] |}.

Definition demo_annotated_input : Output :=
  {| get_shape := [1; 224; 224; 3]%N; get_any_name := "image";
     get_layout := NHWC |}.

(** The world after [load] without an adapter argument. *)
Definition demo_loaded : @World string nat Z (option Model) :=
  snd (load demo_runtime demo_adapters demo_task None
         (demo_world ∅ "net.xml")).

(** The result object [infer] returns for "cat.png" in that world. *)
Definition demo_result : @ResultObject Z (list nat) :=
  {| base := 0%Z; derived := [1] |}.

(** An adapter class whose [loadModel] rejects every model, remembering the
    model it was given. *)
Definition rejecting_adapters : InferenceAdapter.class (option Model) :=
  {| InferenceAdapter.OpenVINOInferenceAdapter := None;
     InferenceAdapter.loadModel := fun m device cfg _ =>
       (Throw CompilationError, Some m);
     InferenceAdapter.infer := fun tensors st => (Throw InferenceError, st) |}.

(** The same scenario with counting adapters: the caller's adapter and the one
    [load] makes both start with counter 0. *)
Definition demo_counted : @World string nat Z (option Model * nat) :=
  snd (load demo_runtime (counting demo_adapters) demo_task None
         {| self := demo_self ∅ "net.xml";
            heap := {[1%positive := (None, 0)]}; log := []; calls := [] |}).

(** ** Properties *)

Section Properties.
Context {InputData InternalModelData ResultBase Derived AdapterState : Type}.
Variable rt : Runtime.
Variable adapters : InferenceAdapter.class AdapterState.
Variable task : @Task InputData InternalModelData ResultBase Derived.
Variable ResultBase_default : ResultBase.

Abbreviation W := (@World InputData InternalModelData ResultBase AdapterState).
Abbreviation Calls := (list (@Call InputData InternalModelData ResultBase)).

Ltac run_members :=
  unfold load, prepareModel, infer, make_shared, set_inferenceAdapter, via,
    run_hook, slog_info, emit, call, put_self, lift, bind, gets, ret; simpl.

Ltac run_layout :=
  unfold getInputLayout, inputsLayouts_subscript, slog_warn, emit, put_self,
    bind, gets, ret; simpl.

(** *** [getInputLayout] *)

(** On a map with a single entry, [begin()->second] is the value of that
    entry, whatever its key. *)
Lemma begin_second_single (m : gmap string Layout) k l :
  size m = 1 -> m !! k = Some l -> begin_second m = l.
Proof.
  intros Hsize Hk. unfold begin_second.
  rewrite <- length_map_to_list in Hsize.
  apply elem_of_map_to_list in Hk.
  destruct (map_to_list m) as [|[k0 v0] [|? ?]]; simpl in Hsize; try discriminate.
  apply list_elem_of_singleton in Hk. congruence.
Qed.

(** The whole effect of the by-name branch on an unlisted name. *)
Lemma getInputLayout_unlisted (input : Output) (w : W) :
  empty (get_layout input) = true ->
  2 <= size (inputsLayouts (self w)) ->
  inputsLayouts (self w) !! get_any_name input = None ->
  getInputLayout rt input w =
    (Ok Layout_default,
     {| self := {| inferenceAdapter := inferenceAdapter (self w);
                   modelFile := modelFile (self w);
                   config := config (self w);
                   inputsLayouts :=
                     <[get_any_name input := Layout_default]>
                       (inputsLayouts (self w)) |};
        heap := heap w; log := log w; calls := calls w |}).
Proof.
  intros Hann Hsize Hnone. run_layout. rewrite Hann.
  rewrite !bool_decide_eq_false_2 by lia.
  rewrite Hnone. reflexivity.
Qed.

(** C3: an input whose layout is annotated on the model graph resolves to
    exactly that annotation.  The world (hence the configured map) is
    arbitrary and comes back untouched, nothing is logged, and the answer does
    not mention [getLayoutFromShape]. *)
Theorem getInputLayout_annotated (input : Output) (w : W) :
  empty (get_layout input) = false ->
  getInputLayout rt input w = (Ok (get_layout input), w).
Proof.
  intros Hann. unfold getInputLayout. rewrite Hann. reflexivity.
Qed.

(** C4: with no annotation and an empty [inputsLayouts], the answer is
    [getLayoutFromShape] of the input's shape, and the call appends exactly
    one line to the log, of severity [warn]; nothing else changes. *)
Theorem getInputLayout_autodetect (input : Output) (w : W) :
  empty (get_layout input) = true ->
  inputsLayouts (self w) = ∅ ->
  let detected := getLayoutFromShape rt (get_shape input) in
  let line :=
    Slog.Line Slog.warn
      ("Automatically detected layout '" ++ to_string rt detected
       ++ "' for input '" ++ get_any_name input ++ "' will be used.") in
  getInputLayout rt input w =
    (Ok detected,
     {| self := self w; heap := heap w; log := log w ++ [line];
        calls := calls w |})
  /\ length (List.filter Slog.is_warn (log (snd (getInputLayout rt input w)))) =
     S (length (List.filter Slog.is_warn (log w))).
Proof.
  intros Hann Hempty detected line.
  assert (Heq : getInputLayout rt input w =
    (Ok detected,
     {| self := self w; heap := heap w; log := log w ++ [line];
        calls := calls w |})).
  { run_layout. rewrite Hann, Hempty, map_size_empty. reflexivity. }
  split; [exact Heq|].
  rewrite Heq. simpl. rewrite List.filter_app, length_app. simpl. lia.
Qed.

(** C5: with no annotation and exactly one configured entry, every input
    receives the layout of that entry; the entry's key [k] and the input's
    name are unrelated. *)
Theorem getInputLayout_single_entry (input : Output) (w : W) k l :
  empty (get_layout input) = true ->
  size (inputsLayouts (self w)) = 1 ->
  inputsLayouts (self w) !! k = Some l ->
  getInputLayout rt input w = (Ok l, w).
Proof.
  intros Hann Hsize Hk. run_layout. rewrite Hann, Hsize. simpl.
  rewrite (begin_second_single _ k l Hsize Hk). reflexivity.
Qed.

(** C1 (as the code has it): with no annotation, two or more configured
    entries and none for the input's name, the call does not fail; it returns
    the default-constructed layout, which is empty. *)
Theorem getInputLayout_unlisted_returns_default (input : Output) (w : W) :
  empty (get_layout input) = true ->
  2 <= size (inputsLayouts (self w)) ->
  inputsLayouts (self w) !! get_any_name input = None ->
  fst (getInputLayout rt input w) = Ok Layout_default
  /\ empty Layout_default = true
  /\ forall e, fst (getInputLayout rt input w) <> Throw e.
Proof.
  intros Hann Hsize Hnone.
  rewrite (getInputLayout_unlisted input w Hann Hsize Hnone). simpl.
  repeat split. intros e. discriminate.
Qed.

(** C10: in the same situation the lookup adds an entry to [inputsLayouts]:
    afterwards the map is the old one with the default-constructed layout
    stored under the input's name, so it has one entry more and differs from
    the old one; the other fields, the log and the heap are as before. *)
Theorem getInputLayout_unlisted_grows_inputsLayouts (input : Output) (w : W) :
  empty (get_layout input) = true ->
  2 <= size (inputsLayouts (self w)) ->
  inputsLayouts (self w) !! get_any_name input = None ->
  let w' := snd (getInputLayout rt input w) in
  inputsLayouts (self w') =
    <[get_any_name input := Layout_default]> (inputsLayouts (self w))
  /\ inputsLayouts (self w') !! get_any_name input = Some Layout_default
  /\ size (inputsLayouts (self w')) = S (size (inputsLayouts (self w)))
  /\ inputsLayouts (self w') <> inputsLayouts (self w)
  /\ (forall k, k <> get_any_name input ->
        inputsLayouts (self w') !! k = inputsLayouts (self w) !! k)
  /\ inferenceAdapter (self w') = inferenceAdapter (self w)
  /\ modelFile (self w') = modelFile (self w)
  /\ config (self w') = config (self w)
  /\ heap w' = heap w /\ log w' = log w /\ calls w' = calls w.
Proof.
  intros Hann Hsize Hnone w'. subst w'.
  rewrite (getInputLayout_unlisted input w Hann Hsize Hnone). simpl.
  split; [reflexivity|].
  split; [apply lookup_insert_eq|].
  split; [apply map_size_insert_None; exact Hnone|].
  split.
  { intros Heq. apply (f_equal size) in Heq.
    rewrite map_size_insert_None in Heq by exact Hnone. lia. }
  split.
  { intros k Hk. apply lookup_insert_ne. congruence. }
  repeat split.
Qed.

(** C9 (as the code has it): the returned layout is a function of the shape,
    the annotation and the configured map, and of the name only in the by-name
    branch, that is, when the annotation is empty and the map has two or more
    entries.  The two worlds may differ in everything but [inputsLayouts]. *)
Theorem getInputLayout_deterministic (i1 i2 : Output) (w1 w2 : W) :
  get_shape i1 = get_shape i2 ->
  get_layout i1 = get_layout i2 ->
  inputsLayouts (self w1) = inputsLayouts (self w2) ->
  (empty (get_layout i1) = true ->
   2 <= size (inputsLayouts (self w1)) ->
   get_any_name i1 = get_any_name i2) ->
  fst (getInputLayout rt i1 w1) = fst (getInputLayout rt i2 w2).
Proof.
  intros Hshape Hlayout Hmap Hname.
  destruct w1 as [[a1 f1 c1 m] h1 l1 t1], w2 as [[a2 f2 c2 m2] h2 l2 t2].
  simpl in Hmap, Hname. subst m2. run_layout.
  rewrite <- Hshape, <- Hlayout.
  destruct (empty (get_layout i1)) eqn:Hann; [|reflexivity].
  destruct (decide (size m = 0)) as [H0|H0].
  { rewrite !bool_decide_eq_true_2 by exact H0. reflexivity. }
  rewrite !(bool_decide_eq_false_2 (size m = 0)) by exact H0.
  destruct (decide (size m = 1)) as [H1|H1].
  { rewrite !bool_decide_eq_true_2 by exact H1. reflexivity. }
  rewrite !(bool_decide_eq_false_2 (size m = 1)) by exact H1.
  rewrite <- (Hname eq_refl) by lia.
  simpl. destruct (m !! get_any_name i1); reflexivity.
Qed.

(** *** [load], [prepareModel] and [infer] *)

Lemma load_adopted (adapter : option positive) (w : W) :
  load rt adapters task adapter w =
  prepareModel rt adapters task (adopted adapters adapter w).
Proof. destruct adapter; reflexivity. Qed.

(** One run of [prepareModel], case by case, with the world it leaves. *)
Lemma prepareModel_run (w : W) :
  let file := modelFile (self w) in
  let log1 := (log w ++ [Slog.Line Slog.info ("Reading model " ++ file)])%list in
  prepareModel rt adapters task w =
  match read_model rt file with
  | Throw e =>
      (Throw e, {| self := self w; heap := heap w; log := log1;
                   calls := calls w ++ [CallReadModel file] |})
  | Ok m0 =>
      let log2 :=
        (log1 ++ map (Slog.Line Slog.info) (logBasicModelInfo rt m0))%list in
      match prepareInputsOutputs task m0 (self w) with
      | (Throw e, s, ls) =>
          (Throw e, {| self := s; heap := heap w; log := log2 ++ ls;
                       calls := calls w ++
                         [CallReadModel file; CallPrepareInputsOutputs m0] |})
      | (Ok m1, s, ls) =>
          let cfg := compilationConfig (config s) in
          let calls3 :=
            (calls w ++ [CallReadModel file; CallPrepareInputsOutputs m0;
                         CallSetBatch m1 1])%list in
          match inferenceAdapter s with
          | None =>
              (Throw NullDereference,
               {| self := s; heap := heap w; log := log2 ++ ls;
                  calls := calls3 |})
          | Some l =>
              match heap w !! l with
              | None =>
                  (Throw NullDereference,
                   {| self := s; heap := heap w; log := log2 ++ ls;
                      calls := calls3 |})
              | Some a =>
                  match InferenceAdapter.loadModel adapters (set_batch m1 1)
                          "AUTO" cfg a with
                  | (res, a') =>
                      (res, {| self := s; heap := <[l := a']> (heap w);
                               log := log2 ++ ls;
                               calls := calls w ++
                                 prepareModel_steps file m0 m1 l cfg |})
                  end
              end
          end
      end
  end.
Proof.
  run_members.
  destruct (read_model rt (modelFile (self w))) as [m0|e]; simpl.
  2: { reflexivity. }
  destruct (prepareInputsOutputs task m0 (self w)) as [[[m1|e] s] ls]; simpl.
  2: { rewrite <- !app_assoc. reflexivity. }
  unfold prepareModel_steps.
  destruct (inferenceAdapter s) as [l|]; simpl.
  2: { rewrite <- !app_assoc. reflexivity. }
  destruct (heap w !! l) as [a|]; simpl.
  2: { rewrite <- !app_assoc. reflexivity. }
  destruct (InferenceAdapter.loadModel adapters _ _ _ a) as [res a']; simpl.
  rewrite <- !app_assoc. reflexivity.
Qed.

(** One run of [infer], case by case, with the world it leaves. *)
Lemma infer_world (inputData : InputData) (w : W) :
  infer adapters task ResultBase_default inputData w =
  match preprocess task inputData ∅ (self w) with
  | (Throw e, s1, ls1) =>
      (Throw e, {| self := s1; heap := heap w; log := log w ++ ls1;
                   calls := calls w ++ [CallPreprocess inputData] |})
  | (Ok pre, s1, ls1) =>
      let calls1 := (calls w ++ [CallPreprocess inputData])%list in
      match inferenceAdapter s1 with
      | None =>
          (Throw NullDereference,
           {| self := s1; heap := heap w; log := log w ++ ls1;
              calls := calls1 |})
      | Some l =>
          match heap w !! l with
          | None =>
              (Throw NullDereference,
               {| self := s1; heap := heap w; log := log w ++ ls1;
                  calls := calls1 |})
          | Some a =>
              let calls2 :=
                (calls w ++ [CallPreprocess inputData;
                             CallAdapterInfer l (snd pre)])%list in
              match InferenceAdapter.infer adapters (snd pre) a with
              | (Throw e, a') =>
                  (Throw e, {| self := s1; heap := <[l := a']> (heap w);
                               log := log w ++ ls1; calls := calls2 |})
              | (Ok out, a') =>
                  let raw := raw_result ResultBase_default (fst pre) out in
                  match postprocess task raw s1 with
                  | (res, s2, ls2) =>
                      (match res with
                       | Ok post => returned post
                       | Throw e => Throw e
                       end,
                       {| self := s2; heap := <[l := a']> (heap w);
                          log := (log w ++ ls1) ++ ls2;
                          calls := calls2 ++ [CallPostprocess raw] |})
                  end
              end
          end
      end
  end.
Proof.
  run_members.
  destruct (preprocess task inputData ∅ (self w)) as [[[pre|e] s1] ls1]; simpl.
  2: { reflexivity. }
  destruct (inferenceAdapter s1) as [l|]; simpl.
  2: { reflexivity. }
  destruct (heap w !! l) as [a|]; simpl.
  2: { reflexivity. }
  destruct (InferenceAdapter.infer adapters (snd pre) a) as [[out|e] a']; simpl.
  2: { rewrite <- !app_assoc. reflexivity. }
  unfold raw_result, returned, throw.
  destruct (postprocess task _ s1) as [[[[[obj|] result']|e] s2] ls2]; simpl;
    rewrite <- !app_assoc; reflexivity.
Qed.

(** C6: [prepareModel] reads the model from the configured file, runs the
    hook [prepareInputsOutputs] on the model read, sets the batch of the model
    the hook left to 1, and runs [loadModel] of the adapter the member
    designates on that model, with device "AUTO" and the compilation
    configuration.  A failing step ends the run there, with the later steps
    not done: after a failed read the fields and the adapter are untouched,
    after a failed hook the adapter is untouched.  The adapter object ends in
    the state its [loadModel] leaves when given the batch-1 model; the
    recorded calls come in the same order. *)
Theorem prepareModel_steps_in_order (w : W) :
  let r := prepareModel rt adapters task w in
  let file := modelFile (self w) in
  exists ev : list Call,
    calls (snd r) = (calls w ++ ev)%list
    /\ (exists m0 m1 l cfg, ev `prefix_of` prepareModel_steps file m0 m1 l cfg)
    /\ (forall l m d c, CallLoadModel l m d c ∈ ev ->
          get_batch m = 1%N /\ d = "AUTO")
    /\ match read_model rt file with
       | Throw e =>
           ev = [CallReadModel file] /\ fst r = Throw e
           /\ self (snd r) = self w /\ heap (snd r) = heap w
       | Ok m0 =>
           match prepareInputsOutputs task m0 (self w) with
           | (Throw e, s, _) =>
               ev = [CallReadModel file; CallPrepareInputsOutputs m0]
               /\ fst r = Throw e
               /\ self (snd r) = s /\ heap (snd r) = heap w
           | (Ok m1, s, _) =>
               self (snd r) = s
               /\ match inferenceAdapter s with
                  | None =>
                      ev = [CallReadModel file; CallPrepareInputsOutputs m0;
                            CallSetBatch m1 1]
                      /\ fst r = Throw NullDereference
                      /\ heap (snd r) = heap w
                  | Some l =>
                      match heap w !! l with
                      | None =>
                          ev = [CallReadModel file;
                                CallPrepareInputsOutputs m0; CallSetBatch m1 1]
                          /\ fst r = Throw NullDereference
                          /\ heap (snd r) = heap w
                      | Some a =>
                          let cfg := compilationConfig (config s) in
                          let run :=
                            InferenceAdapter.loadModel adapters
                              (set_batch m1 1) "AUTO" cfg a in
                          ev = prepareModel_steps file m0 m1 l cfg
                          /\ fst r = fst run
                          /\ heap (snd r) = <[l := snd run]> (heap w)
                      end
                  end
           end
       end.
Proof.
  intros r file. subst r file. rewrite prepareModel_run. cbv zeta.
  set (file := modelFile (self w)).
  assert (Hno : forall ev : Calls,
            (forall c, c ∈ ev -> forall l m d cfg, c <> CallLoadModel l m d cfg) ->
            forall l m d c, CallLoadModel l m d c ∈ ev ->
              get_batch m = 1%N /\ d = "AUTO").
  { intros ev Hev l m d c Hin. exfalso. exact (Hev _ Hin l m d c eq_refl). }
  destruct (read_model rt file) as [m0|e]; simpl.
  2: { exists [CallReadModel file]. split; [reflexivity|]. split.
       { exists (MkModel "" [] [] 0), (MkModel "" [] [] 0), 1%positive, ∅.
         eexists. reflexivity. }
       split; [|repeat split].
       apply Hno. intros c Hc.
       apply list_elem_of_singleton in Hc. subst c. discriminate. }
  destruct (prepareInputsOutputs task m0 (self w)) as [[[m1|e] s] ls]; simpl.
  2: { exists [CallReadModel file; CallPrepareInputsOutputs m0].
       split; [reflexivity|]. split.
       { exists m0, m0, 1%positive, ∅. eexists. reflexivity. }
       split; [|repeat split].
       apply Hno. intros c Hc.
       repeat (apply elem_of_cons in Hc as [->|Hc]; [discriminate|]).
       apply elem_of_nil in Hc. contradiction. }
  set (three := [CallReadModel file; CallPrepareInputsOutputs m0;
                 CallSetBatch m1 1] : Calls).
  assert (Hthree :
    (exists m0' m1' l cfg,
       three `prefix_of` prepareModel_steps file m0' m1' l cfg)
    /\ forall l m d c,
         CallLoadModel l m d c ∈ three -> get_batch m = 1%N /\ d = "AUTO").
  { split.
    - exists m0, m1, 1%positive, ∅. eexists. reflexivity.
    - apply Hno. intros c Hc.
      repeat (apply elem_of_cons in Hc as [->|Hc]; [discriminate|]).
      apply elem_of_nil in Hc. contradiction. }
  destruct Hthree as [Hpre3 Hno3].
  destruct (inferenceAdapter s) as [l|]; simpl.
  2: { eexists. split; [reflexivity|]. split; [exact Hpre3|].
       split; [exact Hno3|]. repeat split. }
  destruct (heap w !! l) as [a|]; simpl.
  2: { eexists. split; [reflexivity|]. split; [exact Hpre3|].
       split; [exact Hno3|]. repeat split. }
  destruct (InferenceAdapter.loadModel adapters _ _ _ a) as [res a']; simpl.
  eexists. split; [reflexivity|]. split; [repeat eexists|].
  split; [|repeat split].
  intros l0 m d c Hin. unfold prepareModel_steps in Hin.
  repeat (apply elem_of_cons in Hin as [Hin|Hin]; [try discriminate|]).
  - inversion Hin; subst. split; reflexivity.
  - apply elem_of_nil in Hin. contradiction.
Qed.

(** C2 (as the code has it): when reading the model fails, [load] fails with
    the same error, after it has stored the adapter in [inferenceAdapter]
    (a newly made default adapter when none was given) and logged the
    "Reading model" line.  The other fields are unchanged, and neither the
    hook nor the adapter has been called. *)
Theorem load_read_failure (adapter : option positive) (w : W) :
  read_model rt (modelFile (self w)) = Throw ModelReadError ->
  let r := load rt adapters task adapter w in
  let p := match adapter with
           | Some l => l
           | None => fresh (dom (heap w))
           end in
  fst r = Throw ModelReadError
  /\ inferenceAdapter (self (snd r)) = Some p
  /\ modelFile (self (snd r)) = modelFile (self w)
  /\ config (self (snd r)) = config (self w)
  /\ inputsLayouts (self (snd r)) = inputsLayouts (self w)
  /\ heap (snd r) =
       match adapter with
       | Some _ => heap w
       | None =>
           <[p := InferenceAdapter.OpenVINOInferenceAdapter adapters]> (heap w)
       end
  /\ log (snd r) =
       (log w ++ [Slog.Line Slog.info ("Reading model " ++ modelFile (self w))])%list
  /\ calls (snd r) = (calls w ++ [CallReadModel (modelFile (self w))])%list.
Proof.
  intros Hread r p. subst r p. run_members.
  destruct adapter as [l|]; simpl; rewrite Hread; simpl; repeat split.
Qed.

(** C8: when [load] has succeeded and [infer] then returns a result object,
    that object is the one [postprocess] made from the raw inference result,
    with its base subobject overwritten by the base of the raw result: the
    task-specific fields are those [postprocess] produced, and the base
    fields are those of the [InferenceResult]. *)
Theorem load_infer_result_from_postprocess
    (adapter : option positive) (inputData : InputData)
    (w0 w1 w2 : W) (res : ResultObject) :
  load rt adapters task adapter w0 = (Ok tt, w1) ->
  infer adapters task ResultBase_default inputData w1 = (Ok res, w2) ->
  exists imd tensors s1 ls1 a a' out retVal result' s2 ls2,
    preprocess task inputData ∅ (self w1) = (Ok (imd, tensors), s1, ls1)
    /\ deref (inferenceAdapter s1) (heap w1) = Some a
    /\ InferenceAdapter.infer adapters tensors a = (Ok out, a')
    /\ postprocess task (raw_result ResultBase_default imd out) s1 =
         (Ok (Some retVal, result'), s2, ls2)
    /\ res = assign_base retVal result'
    /\ derived res = derived retVal
    /\ base res = result_base result'.
Proof.
  intros _. rewrite infer_world. cbv zeta.
  destruct (preprocess task inputData ∅ (self w1))
    as [[[[imd tensors]|e] s1] ls1] eqn:Hpre; [|discriminate].
  simpl.
  destruct (inferenceAdapter s1) as [l|] eqn:Hp; [|discriminate].
  destruct (heap w1 !! l) as [a|] eqn:Hderef; [|discriminate].
  destruct (InferenceAdapter.infer adapters tensors a)
    as [[out|e] a'] eqn:Hrun; [|discriminate].
  destruct (postprocess task (raw_result ResultBase_default imd out) s1)
    as [[[[[retVal|] result']|e] s2] ls2] eqn:Hpost;
    unfold returned; simpl; try discriminate.
  intros H. inversion H; subst res.
  exists imd, tensors, s1, ls1, a, a', out, retVal, result', s2, ls2.
  unfold deref. rewrite Hp.
  repeat split; first [assumption|reflexivity].
Qed.

(** *** Further properties of [getInputLayout] *)

(** The five ways through [getInputLayout], each with its outcome. *)
Lemma getInputLayout_cases (input : Output) (w : W) :
  let r := getInputLayout rt input w in
  let m := inputsLayouts (self w) in
  let name := get_any_name input in
  (empty (get_layout input) = false /\ r = (Ok (get_layout input), w))
  \/ (empty (get_layout input) = true /\ m = ∅
      /\ r = (Ok (getLayoutFromShape rt (get_shape input)),
              {| self := self w; heap := heap w;
                 log := log w ++
                   [Slog.Line Slog.warn
                      ("Automatically detected layout '"
                       ++ to_string rt (getLayoutFromShape rt (get_shape input))
                       ++ "' for input '" ++ name ++ "' will be used.")];
                 calls := calls w |}))
  \/ (empty (get_layout input) = true /\ size m = 1
      /\ r = (Ok (begin_second m), w))
  \/ (empty (get_layout input) = true /\ 2 <= size m
      /\ exists l, m !! name = Some l /\ r = (Ok l, w))
  \/ (empty (get_layout input) = true /\ 2 <= size m /\ m !! name = None
      /\ r = (Ok Layout_default,
              {| self := {| inferenceAdapter := inferenceAdapter (self w);
                            modelFile := modelFile (self w);
                            config := config (self w);
                            inputsLayouts := <[name := Layout_default]> m |};
                 heap := heap w; log := log w; calls := calls w |})).
Proof.
  intros r m name. subst r m name.
  destruct (empty (get_layout input)) eqn:Hann.
  2: { left. split; [reflexivity|]. unfold getInputLayout. rewrite Hann.
       reflexivity. }
  right.
  destruct (decide (size (inputsLayouts (self w)) = 0)) as [H0|H0].
  { left. apply map_size_empty_iff in H0. split; [reflexivity|].
    split; [exact H0|]. run_layout. rewrite Hann, H0, map_size_empty.
    reflexivity. }
  right.
  destruct (decide (size (inputsLayouts (self w)) = 1)) as [H1|H1].
  { left. split; [reflexivity|]. split; [exact H1|]. run_layout.
    rewrite Hann, H1. reflexivity. }
  right.
  destruct (inputsLayouts (self w) !! get_any_name input) as [l|] eqn:Hl.
  - left. split; [reflexivity|]. split; [lia|]. exists l.
    split; [reflexivity|]. run_layout. rewrite Hann.
    rewrite !bool_decide_eq_false_2 by assumption. rewrite Hl. reflexivity.
  - right. split; [reflexivity|]. split; [lia|]. split; [reflexivity|].
    apply getInputLayout_unlisted; [exact Hann|lia|exact Hl].
Qed.

(** X1: with no annotation and two or more configured entries, an input whose
    name is listed receives the layout stored under its name, and nothing
    changes. *)
Theorem getInputLayout_listed_name (input : Output) (w : W) (l : Layout) :
  empty (get_layout input) = true ->
  2 <= size (inputsLayouts (self w)) ->
  inputsLayouts (self w) !! get_any_name input = Some l ->
  getInputLayout rt input w = (Ok l, w).
Proof.
  intros Hann Hsize Hl. run_layout. rewrite Hann.
  rewrite !bool_decide_eq_false_2 by lia. rewrite Hl. reflexivity.
Qed.

(** X2: [getInputLayout] always returns a layout, never an error.  It leaves
    [inferenceAdapter], [modelFile], [config], the adapter objects and the
    record of calls alone; every entry of [inputsLayouts] is still there with
    its layout afterwards; the log grows by at most one line. *)
Theorem getInputLayout_frame (input : Output) (w : W) :
  let r := getInputLayout rt input w in
  (exists l, fst r = Ok l)
  /\ inferenceAdapter (self (snd r)) = inferenceAdapter (self w)
  /\ modelFile (self (snd r)) = modelFile (self w)
  /\ config (self (snd r)) = config (self w)
  /\ inputsLayouts (self w) ⊆ inputsLayouts (self (snd r))
  /\ heap (snd r) = heap w
  /\ calls (snd r) = calls w
  /\ exists ls, log (snd r) = (log w ++ ls)%list /\ length ls <= 1.
Proof.
  intros r. subst r.
  destruct (getInputLayout_cases input w)
    as [(_ & ->)|[(_ & _ & ->)|[(_ & _ & ->)|[(_ & _ & l & _ & ->)
       |(_ & _ & Hnone & ->)]]]]; simpl.
  - split; [eauto|]. repeat (split; [reflexivity|]).
    exists []. rewrite app_nil_r. split; [reflexivity|simpl; lia].
  - split; [eauto|]. repeat (split; [reflexivity|]).
    eexists. split; [reflexivity|simpl; lia].
  - split; [eauto|]. repeat (split; [reflexivity|]).
    exists []. rewrite app_nil_r. split; [reflexivity|simpl; lia].
  - split; [eauto|]. repeat (split; [reflexivity|]).
    exists []. rewrite app_nil_r. split; [reflexivity|simpl; lia].
  - split; [eauto|]. repeat (split; [reflexivity|]).
    split; [apply insert_subseteq; exact Hnone|].
    repeat (split; [reflexivity|]).
    exists []. rewrite app_nil_r. split; [reflexivity|simpl; lia].
Qed.

(** X3: [getInputLayout] changes [inputsLayouts] in one situation only: no
    annotation, two or more entries, and none for the input's name.  With an
    annotation, an empty map, a single entry or a listed name, the fields of
    the object are exactly as before. *)
Theorem getInputLayout_changes_fields_iff (input : Output) (w : W) :
  self (snd (getInputLayout rt input w)) <> self w
  <-> (empty (get_layout input) = true
       /\ 2 <= size (inputsLayouts (self w))
       /\ inputsLayouts (self w) !! get_any_name input = None).
Proof.
  destruct (getInputLayout_cases input w)
    as [(Hann & ->)|[(Hann & Hm & ->)|[(Hann & Hm & ->)
       |[(Hann & Hm & l & Hl & ->)|(Hann & Hm & Hnone & ->)]]]]; simpl.
  - split; [congruence|]. intros (H & _). congruence.
  - split; [congruence|]. intros (_ & H & _). rewrite Hm, map_size_empty in H.
    lia.
  - split; [congruence|]. intros (_ & H & _). lia.
  - split; [congruence|]. intros (_ & _ & H). congruence.
  - split; [auto|]. intros _ Heq.
    apply (f_equal inputsLayouts) in Heq. simpl in Heq.
    apply (f_equal size) in Heq.
    rewrite map_size_insert_None in Heq by exact Hnone. lia.
Qed.

(** X4: [getInputLayout] writes to the log exactly when it detects the layout
    itself, that is, when there is no annotation and [inputsLayouts] is empty;
    in every other case the log is as it was. *)
Theorem getInputLayout_logs_iff (input : Output) (w : W) :
  log (snd (getInputLayout rt input w)) <> log w
  <-> (empty (get_layout input) = true /\ inputsLayouts (self w) = ∅).
Proof.
  destruct (getInputLayout_cases input w)
    as [(Hann & ->)|[(Hann & Hm & ->)|[(Hann & Hm & ->)
       |[(Hann & Hm & l & Hl & ->)|(Hann & Hm & Hnone & ->)]]]]; simpl.
  - split; [congruence|]. intros (H & _). congruence.
  - split; [auto|]. intros _ Heq. apply (f_equal length) in Heq.
    rewrite length_app in Heq. simpl in Heq. lia.
  - split; [congruence|]. intros (_ & H). rewrite H, map_size_empty in Hm.
    lia.
  - split; [congruence|]. intros (_ & H). rewrite H, map_size_empty in Hm.
    lia.
  - split; [congruence|]. intros (_ & H). rewrite H, map_size_empty in Hm.
    lia.
Qed.

(** X5: resolving the same input a second time returns the same layout as the
    first time and does not change the fields of the object any further: the
    entry a first by-name lookup may have added is found by the second. *)
Theorem getInputLayout_twice (input : Output) (w : W) :
  let r1 := getInputLayout rt input w in
  let r2 := getInputLayout rt input (snd r1) in
  fst r2 = fst r1 /\ self (snd r2) = self (snd r1).
Proof.
  intros r1 r2. subst r2 r1.
  destruct (getInputLayout_cases input w)
    as [(Hann & Hr)|[(Hann & Hm & Hr)|[(Hann & Hm & Hr)
       |[(Hann & Hm & l & Hl & Hr)|(Hann & Hm & Hnone & Hr)]]]].
  - rewrite Hr. simpl. rewrite Hr. split; reflexivity.
  - rewrite Hr. simpl. run_layout. rewrite Hann. simpl.
    rewrite Hm, map_size_empty. split; reflexivity.
  - rewrite Hr. simpl. rewrite Hr. split; reflexivity.
  - rewrite Hr. simpl. rewrite Hr. split; reflexivity.
  - rewrite Hr. simpl. run_layout. rewrite Hann. simpl.
    rewrite map_size_insert_None by exact Hnone.
    rewrite !bool_decide_eq_false_2 by lia.
    simpl. rewrite lookup_insert_eq. split; reflexivity.
Qed.

(** *** Further properties of [load], [prepareModel] and [infer] *)

(** X6: when [load] returns normally, the member [inferenceAdapter] is not
    null and designates an adapter object that exists. *)
Theorem load_success_adapter_live (adapter : option positive) (w w' : W) :
  load rt adapters task adapter w = (Ok tt, w') ->
  exists l a, inferenceAdapter (self w') = Some l /\ heap w' !! l = Some a.
Proof.
  rewrite load_adopted, prepareModel_run. cbv zeta.
  set (wa := adopted adapters adapter w). clearbody wa.
  destruct (read_model rt (modelFile (self wa))) as [m0|e]; [|discriminate].
  destruct (prepareInputsOutputs task m0 (self wa)) as [[[m1|e] s] ls];
    [|discriminate].
  destruct (inferenceAdapter s) as [l|] eqn:Hp; [|discriminate].
  destruct (heap wa !! l) as [a|]; [|discriminate].
  destruct (InferenceAdapter.loadModel adapters _ _ _ a) as [res a'].
  intros H. inversion H; subst. simpl.
  exists l, a'. split; [exact Hp|apply lookup_insert_eq].
Qed.

(** X7: [load] with a given adapter creates no adapter object; [load] with a
    null argument creates exactly one, at an address none of the existing
    objects has.  This holds whether [load] returns or throws. *)
Theorem load_heap_domain (adapter : option positive) (w : W) :
  dom (heap (snd (load rt adapters task adapter w))) =
    match adapter with
    | Some _ => dom (heap w)
    | None => {[fresh (dom (heap w))]} ∪ dom (heap w)
    end
  /\ fresh (dom (heap w)) ∉ dom (heap w).
Proof.
  split; [|apply is_fresh].
  assert (Ha : dom (heap (adopted adapters adapter w)) =
               match adapter with
               | Some _ => dom (heap w)
               | None => {[fresh (dom (heap w))]} ∪ dom (heap w)
               end).
  { destruct adapter; simpl; [reflexivity|apply dom_insert_L]. }
  rewrite <- Ha. rewrite load_adopted, prepareModel_run. cbv zeta.
  set (wa := adopted adapters adapter w). clearbody wa.
  destruct (read_model rt (modelFile (self wa))) as [m0|e]; [|reflexivity].
  destruct (prepareInputsOutputs task m0 (self wa)) as [[[m1|e] s] ls];
    [|reflexivity].
  destruct (inferenceAdapter s) as [l|]; [|reflexivity].
  destruct (heap wa !! l) as [a|] eqn:Hl; [|reflexivity].
  destruct (InferenceAdapter.loadModel adapters _ _ _ a) as [res a']. simpl.
  apply dom_insert_lookup_L. eauto.
Qed.

(** X8: [load] leaves in its state every adapter object that existed before
    the call and is none of these three: the adapter the member designated
    before the call (the assignment releases it), the adapter passed as
    argument, and the adapter the member designates when [load] ends (the one
    [loadModel] runs on). *)
Theorem load_other_adapters_untouched
    (adapter : option positive) (w : W) (l' : positive) :
  l' ∈ dom (heap w) ->
  inferenceAdapter (self w) <> Some l' ->
  adapter <> Some l' ->
  inferenceAdapter (self (snd (load rt adapters task adapter w))) <> Some l' ->
  heap (snd (load rt adapters task adapter w)) !! l' = heap w !! l'.
Proof.
  intros Hin _ _.
  assert (Ha : heap (adopted adapters adapter w) !! l' = heap w !! l').
  { destruct adapter; simpl; [reflexivity|].
    apply lookup_insert_ne. intros Heq. subst l'.
    exact (is_fresh (dom (heap w)) Hin). }
  rewrite <- Ha. rewrite load_adopted, prepareModel_run. cbv zeta.
  set (wa := adopted adapters adapter w). clearbody wa.
  destruct (read_model rt (modelFile (self wa))) as [m0|e]; [|reflexivity].
  destruct (prepareInputsOutputs task m0 (self wa)) as [[[m1|e] s] ls];
    [|reflexivity].
  destruct (inferenceAdapter s) as [l|] eqn:Hp; [|reflexivity].
  destruct (heap wa !! l) as [a|] eqn:Hl; [|reflexivity].
  destruct (InferenceAdapter.loadModel adapters _ _ _ a) as [res a']. simpl.
  intros Hne. apply lookup_insert_ne. congruence.
Qed.

(** X9: when the adapter's [loadModel] throws, [prepareModel] throws the same
    error and undoes nothing: the fields are as the hook left them and the
    adapter object is as [loadModel] left it. *)
Theorem prepareModel_compile_failure
    (w : W) (m0 m1 : Model) (s : ModelBase) (ls : list Slog.line)
    (l : positive) (a a' : AdapterState) (e : Error) :
  read_model rt (modelFile (self w)) = Ok m0 ->
  prepareInputsOutputs task m0 (self w) = (Ok m1, s, ls) ->
  inferenceAdapter s = Some l ->
  heap w !! l = Some a ->
  InferenceAdapter.loadModel adapters (set_batch m1 1) "AUTO"
    (compilationConfig (config s)) a = (Throw e, a') ->
  let r := prepareModel rt adapters task w in
  fst r = Throw e
  /\ self (snd r) = s
  /\ heap (snd r) = <[l := a']> (heap w).
Proof.
  intros Hread Hhook Hp Hl Hload r. subst r.
  rewrite prepareModel_run. cbv zeta.
  rewrite Hread, Hhook, Hp, Hl, Hload. repeat split.
Qed.

(** X10: [prepareModel] logs "Reading model <file>" before anything else, also
    when the read then fails; after a successful read come the lines of
    [logBasicModelInfo] and then those of the hook.  The fields of the object
    change only through the hook. *)
Theorem prepareModel_log_and_fields (w : W) :
  let r := prepareModel rt adapters task w in
  let file := modelFile (self w) in
  match read_model rt file with
  | Throw _ =>
      log (snd r) =
        (log w ++ [Slog.Line Slog.info ("Reading model " ++ file)])%list
      /\ self (snd r) = self w
  | Ok m0 =>
      let h := prepareInputsOutputs task m0 (self w) in
      log (snd r) =
        (log w ++ Slog.Line Slog.info ("Reading model " ++ file)
               :: map (Slog.Line Slog.info) (logBasicModelInfo rt m0)
               ++ snd h)%list
      /\ self (snd r) = snd (fst h)
  end.
Proof.
  intros r file. subst r file. rewrite prepareModel_run. cbv zeta.
  destruct (read_model rt (modelFile (self w))) as [m0|e]; [|split; reflexivity].
  destruct (prepareInputsOutputs task m0 (self w)) as [[[m1|e] s] ls]; simpl.
  2: { rewrite <- !app_assoc. split; reflexivity. }
  destruct (inferenceAdapter s) as [l|]; simpl.
  2: { rewrite <- !app_assoc. split; reflexivity. }
  destruct (heap w !! l) as [a|]; simpl.
  2: { rewrite <- !app_assoc. split; reflexivity. }
  destruct (InferenceAdapter.loadModel adapters _ _ _ a) as [res a']. simpl.
  rewrite <- !app_assoc. split; reflexivity.
Qed.

(** X11: [infer] raises no error of its own, it only aborts on a null
    pointer.  When it ends with [e], then [e] was thrown by [preprocess], by
    the adapter's [infer] or by [postprocess]; or the member designates no
    adapter at the call on line 81; or [postprocess] returned a null pointer,
    which line 85 assigns through. *)
Theorem infer_error_origin (inputData : InputData) (w : W) (e : Error) :
  fst (infer adapters task ResultBase_default inputData w) = Throw e ->
  (exists s ls, preprocess task inputData ∅ (self w) = (Throw e, s, ls))
  \/ exists pre s ls,
       preprocess task inputData ∅ (self w) = (Ok pre, s, ls)
       /\ ((deref (inferenceAdapter s) (heap w) = None /\ e = NullDereference)
           \/ (exists a a',
                 deref (inferenceAdapter s) (heap w) = Some a
                 /\ InferenceAdapter.infer adapters (snd pre) a = (Throw e, a'))
           \/ (exists a a' out post s2 ls2,
                 deref (inferenceAdapter s) (heap w) = Some a
                 /\ InferenceAdapter.infer adapters (snd pre) a = (Ok out, a')
                 /\ postprocess task
                      (raw_result ResultBase_default (fst pre) out) s
                    = (post, s2, ls2)
                 /\ (post = Throw e
                     \/ exists result',
                          post = Ok (None, result')
                          /\ e = NullDereference))).
Proof.
  rewrite infer_world. cbv zeta.
  destruct (preprocess task inputData ∅ (self w)) as [[[pre|e0] s] ls].
  2: { simpl. intros H. inversion H; subst. left. eauto. }
  intros H. right. exists pre, s, ls. split; [reflexivity|].
  unfold deref.
  destruct (inferenceAdapter s) as [l|].
  2: { simpl in H. inversion H; subst. left. split; reflexivity. }
  destruct (heap w !! l) as [a|].
  2: { simpl in H. inversion H; subst. left. split; reflexivity. }
  destruct (InferenceAdapter.infer adapters (snd pre) a)
    as [[out|e1] a'] eqn:Hrun.
  2: { simpl in H. inversion H; subst. right. left. eauto. }
  destruct (postprocess task (raw_result ResultBase_default (fst pre) out) s)
    as [[[[[obj|] result']|e2] s2] ls2] eqn:Hpost;
    unfold returned in H; simpl in H; [discriminate| |].
  - inversion H; subst. right. right.
    exists a, a', out, (Ok (None, result')), s2, ls2.
    split; [reflexivity|]. split; [exact Hrun|]. split; [exact Hpost|].
    right. exists result'. split; reflexivity.
  - inversion H; subst. right. right.
    exists a, a', out, (Throw e), s2, ls2.
    split; [reflexivity|]. split; [exact Hrun|]. split; [exact Hpost|].
    left. reflexivity.
Qed.

(** X12: [infer] on an object whose member is null after preprocessing (no
    [load] has stored an adapter) still runs [preprocess] and keeps the fields
    it wrote, then aborts on the call through the null pointer; no adapter is
    entered and [postprocess] is not called. *)
Theorem infer_null_adapter
    (inputData : InputData) (w : W) pre (s : ModelBase) (ls : list Slog.line) :
  preprocess task inputData ∅ (self w) = (Ok pre, s, ls) ->
  inferenceAdapter s = None ->
  let r := infer adapters task ResultBase_default inputData w in
  fst r = Throw NullDereference
  /\ self (snd r) = s
  /\ heap (snd r) = heap w
  /\ calls (snd r) = (calls w ++ [CallPreprocess inputData])%list.
Proof.
  intros Hpre Hnull r. subst r. rewrite infer_world. cbv zeta.
  rewrite Hpre, Hnull. repeat split.
Qed.

(** X13: when the adapter's [infer] throws, [infer] throws the same error
    without calling [postprocess] and without a second attempt; the fields
    are as [preprocess] left them and the adapter object is as the failed call
    left it. *)
Theorem infer_adapter_failure
    (inputData : InputData) (w : W) pre (s : ModelBase) (ls : list Slog.line)
    (l : positive) (a a' : AdapterState) (e : Error) :
  preprocess task inputData ∅ (self w) = (Ok pre, s, ls) ->
  inferenceAdapter s = Some l ->
  heap w !! l = Some a ->
  InferenceAdapter.infer adapters (snd pre) a = (Throw e, a') ->
  let r := infer adapters task ResultBase_default inputData w in
  fst r = Throw e
  /\ self (snd r) = s
  /\ heap (snd r) = <[l := a']> (heap w)
  /\ calls (snd r) =
       (calls w ++ [CallPreprocess inputData;
                    CallAdapterInfer l (snd pre)])%list.
Proof.
  intros Hpre Hp Hl Hrun r. subst r. rewrite infer_world. cbv zeta.
  rewrite Hpre, Hp, Hl, Hrun. repeat split.
Qed.

(** X14: the [InferenceResult] is default-constructed and [infer] never fills
    its base fields.  So when [postprocess] leaves the base of the
    [InferenceResult] alone, the base of the returned object is the
    default-constructed one, whatever base [postprocess] gave its own
    object. *)
Theorem infer_base_is_default
    (inputData : InputData) (w w' : W) (res : ResultObject) :
  (forall raw s post s' ls,
     postprocess task raw s = (Ok post, s', ls) ->
     result_base (snd post) = result_base raw) ->
  infer adapters task ResultBase_default inputData w = (Ok res, w') ->
  base res = ResultBase_default.
Proof.
  intros Hkeep. rewrite infer_world. cbv zeta.
  destruct (preprocess task inputData ∅ (self w)) as [[[pre|e0] s] ls];
    [|discriminate].
  destruct (inferenceAdapter s) as [l|]; [|discriminate].
  destruct (heap w !! l) as [a|]; [|discriminate].
  destruct (InferenceAdapter.infer adapters (snd pre) a) as [[out|e1] a'];
    [|discriminate].
  destruct (postprocess task (raw_result ResultBase_default (fst pre) out) s)
    as [[[[[obj|] result']|e2] s2] ls2] eqn:Hpost;
    unfold returned; simpl; try discriminate.
  intros H. inversion H; subst. simpl.
  exact (Hkeep _ _ _ _ _ Hpost).
Qed.

(** X15: [infer] creates no adapter object, and the only adapter object it can
    change is the one the member designates once [preprocess] has run. *)
Theorem infer_heap_frame (inputData : InputData) (w : W) :
  let r := infer adapters task ResultBase_default inputData w in
  dom (heap (snd r)) = dom (heap w)
  /\ forall l',
       inferenceAdapter (snd (fst (preprocess task inputData ∅ (self w))))
         <> Some l' ->
       heap (snd r) !! l' = heap w !! l'.
Proof.
  intros r. subst r. rewrite infer_world. cbv zeta.
  destruct (preprocess task inputData ∅ (self w)) as [[[pre|e0] s] ls]; simpl.
  2: { split; [reflexivity|]. intros; reflexivity. }
  destruct (inferenceAdapter s) as [l|]; simpl.
  2: { split; [reflexivity|]. intros; reflexivity. }
  destruct (heap w !! l) as [a|] eqn:Hl; simpl.
  2: { split; [reflexivity|]. intros; reflexivity. }
  assert (Hdom : forall x : AdapterState, dom (<[l := x]> (heap w)) = dom (heap w))
    by (intros x; apply dom_insert_lookup_L; eauto).
  destruct (InferenceAdapter.infer adapters (snd pre) a) as [[out|e1] a'];
    simpl.
  2: { split; [apply Hdom|]. intros l' Hne. apply lookup_insert_ne.
       congruence. }
  destruct (postprocess task _ s) as [[res s2] ls2]. simpl.
  split; [apply Hdom|]. intros l' Hne. apply lookup_insert_ne. congruence.
Qed.

(** X16: [infer] writes no log line itself.  After a run the log is the old
    log, then the lines of [preprocess], then, exactly when [postprocess] was
    called (preprocessing returned and the adapter returned outputs), all the
    lines of that call on the raw result and the fields [preprocess] left. *)
Theorem infer_log (inputData : InputData) (w : W) :
  let r := infer adapters task ResultBase_default inputData w in
  log (snd r) =
    (log w ++
     match preprocess task inputData ∅ (self w) with
     | (Throw _, _, ls1) => ls1
     | (Ok pre, s1, ls1) =>
         ls1 ++
         match deref (inferenceAdapter s1) (heap w) with
         | None => []
         | Some a =>
             match InferenceAdapter.infer adapters (snd pre) a with
             | (Throw _, _) => []
             | (Ok out, _) =>
                 snd (postprocess task
                        (raw_result ResultBase_default (fst pre) out) s1)
             end
         end
     end)%list.
Proof.
  intros r. subst r. rewrite infer_world. cbv zeta. unfold deref.
  destruct (preprocess task inputData ∅ (self w)) as [[[pre|e0] s] ls]; simpl.
  2: { reflexivity. }
  destruct (inferenceAdapter s) as [l|]; simpl.
  2: { rewrite app_nil_r. reflexivity. }
  destruct (heap w !! l) as [a|]; simpl.
  2: { rewrite app_nil_r. reflexivity. }
  destruct (InferenceAdapter.infer adapters (snd pre) a) as [[out|e1] a'];
    simpl.
  2: { rewrite app_nil_r. reflexivity. }
  destruct (postprocess task _ s) as [[res s2] ls2]. simpl.
  rewrite app_assoc. reflexivity.
Qed.

(** X17: [load] and [infer] meet on the same adapter object.  A successful
    [load] read a model, ran the hook on it, and left the adapter the member
    designates in the state its [loadModel] gives for the hook's model with
    batch 1, device "AUTO" and the compilation configuration.  If
    [preprocess] does not redirect the member, [infer] then runs [infer] of
    that same object, in that state, on the tensors [preprocess] produced. *)
Theorem load_then_infer_same_adapter
    (adapter : option positive) (inputData : InputData) (w0 w1 : W)
    pre (s1 : ModelBase) (ls1 : list Slog.line) :
  load rt adapters task adapter w0 = (Ok tt, w1) ->
  preprocess task inputData ∅ (self w1) = (Ok pre, s1, ls1) ->
  inferenceAdapter s1 = inferenceAdapter (self w1) ->
  let wa := adopted adapters adapter w0 in
  let r := infer adapters task ResultBase_default inputData w1 in
  exists m0 m1 ls l a0 a1,
    read_model rt (modelFile (self wa)) = Ok m0
    /\ prepareInputsOutputs task m0 (self wa) = (Ok m1, self w1, ls)
    /\ inferenceAdapter (self w1) = Some l
    /\ heap wa !! l = Some a0
    /\ InferenceAdapter.loadModel adapters (set_batch m1 1) "AUTO"
         (compilationConfig (config (self w1))) a0 = (Ok tt, a1)
    /\ heap w1 = <[l := a1]> (heap wa)
    /\ heap (snd r) =
         <[l := snd (InferenceAdapter.infer adapters (snd pre) a1)]> (heap w1).
Proof.
  rewrite load_adopted, prepareModel_run. cbv zeta.
  set (wa := adopted adapters adapter w0). clearbody wa.
  destruct (read_model rt (modelFile (self wa))) as [m0|e] eqn:Hread;
    [|discriminate].
  destruct (prepareInputsOutputs task m0 (self wa)) as [[[m1|e] s] ls]
    eqn:Hhook; [|discriminate].
  destruct (inferenceAdapter s) as [l|] eqn:Hp; [|discriminate].
  destruct (heap wa !! l) as [a0|] eqn:Hl; [|discriminate].
  destruct (InferenceAdapter.loadModel adapters _ _ _ a0) as [res a1]
    eqn:Hload.
  intros H Hpre Hsame. inversion H; subst. simpl in Hsame, Hpre.
  rewrite Hp in Hsame.
  exists m0, m1, ls, l, a0, a1. simpl.
  repeat (split; [first [assumption|reflexivity]|]).
  rewrite infer_world. cbv zeta. simpl.
  rewrite Hpre, Hsame. rewrite lookup_insert_eq.
  destruct (InferenceAdapter.infer adapters (snd pre) a1) as [[out|e1] a2];
    simpl; [|reflexivity].
  destruct (postprocess task _ s1) as [[res2 s2] ls2]. reflexivity.
Qed.

End Properties.

(** C7 (as the code has it): one run of [infer] enters the adapter's [infer]
    at most once: exactly once when [preprocess] returns and the member
    designates an adapter, on the tensors [preprocess] produced, and not at
    all when [preprocess] throws or the member is null.  The adapter object
    ends in the state one call leaves, and with a counting adapter the
    counter of the member's adapter goes up by one and no other counter
    moves.  The steps come in the order preprocess, adapter, postprocess, and
    [postprocess] receives the adapter's outputs together with the internal
    model data of [preprocess]. *)
Theorem infer_single_adapter_call
    {InputData InternalModelData ResultBase Derived AdapterState : Type}
    (adapters : InferenceAdapter.class AdapterState)
    (task : @Task InputData InternalModelData ResultBase Derived)
    (ResultBase_default : ResultBase) (inputData : InputData) :
  (forall w : @World InputData InternalModelData ResultBase AdapterState,
     let r := infer adapters task ResultBase_default inputData w in
     exists ev : list Call,
       calls (snd r) = (calls w ++ ev)%list
       /\ length (List.filter is_adapter_infer ev) <= 1
       /\ match preprocess task inputData ∅ (self w) with
          | (Throw e, _, _) =>
              fst r = Throw e /\ ev = [CallPreprocess inputData]
              /\ heap (snd r) = heap w
          | (Ok pre, s, _) =>
              match deref (inferenceAdapter s) (heap w) with
              | None =>
                  fst r = Throw NullDereference
                  /\ ev = [CallPreprocess inputData]
                  /\ heap (snd r) = heap w
              | Some a =>
                  let run := InferenceAdapter.infer adapters (snd pre) a in
                  exists l,
                    inferenceAdapter s = Some l
                    /\ heap (snd r) = <[l := snd run]> (heap w)
                    /\ match fst run with
                       | Throw e =>
                           fst r = Throw e
                           /\ ev = [CallPreprocess inputData;
                                    CallAdapterInfer l (snd pre)]
                       | Ok out =>
                           let raw :=
                             raw_result ResultBase_default (fst pre) out in
                           ev = [CallPreprocess inputData;
                                 CallAdapterInfer l (snd pre);
                                 CallPostprocess raw]
                           /\ fst r =
                                match fst (fst (postprocess task raw s)) with
                                | Ok post => returned post
                                | Throw e => Throw e
                                end
                       end
              end
          end)
  /\ (forall (w : @World InputData InternalModelData ResultBase
                    (AdapterState * nat))
        (l : positive) (st : AdapterState) (n : nat),
        heap w !! l = Some (st, n) ->
        let r := infer (counting adapters) task ResultBase_default inputData w in
        exists st',
          heap (snd r) !! l =
            Some (st',
                  match preprocess task inputData ∅ (self w) with
                  | (Ok _, s, _) =>
                      if bool_decide (inferenceAdapter s = Some l)
                      then S n else n
                  | (Throw _, _, _) => n
                  end)).
Proof.
  split.
  - intros w r. subst r. rewrite infer_world. cbv zeta. unfold deref.
    destruct (preprocess task inputData ∅ (self w)) as [[[pre|e] s] ls]; simpl.
    2: { eexists. split; [reflexivity|]. simpl. split; [lia|]. repeat split. }
    destruct (inferenceAdapter s) as [l|]; simpl.
    2: { eexists. split; [reflexivity|]. simpl. split; [lia|]. repeat split. }
    destruct (heap w !! l) as [a|]; simpl.
    2: { eexists. split; [reflexivity|]. simpl. split; [lia|]. repeat split. }
    destruct (InferenceAdapter.infer adapters (snd pre) a) as [[out|e] a'];
      simpl.
    2: { eexists. split; [reflexivity|]. simpl. split; [lia|].
         exists l. repeat split. }
    destruct (postprocess task _ s) as [[res s2] ls2]. simpl.
    eexists. split; [rewrite <- app_assoc; reflexivity|].
    simpl. split; [lia|]. exists l. repeat split.
  - intros w l st n Hl r. subst r. rewrite infer_world. cbv zeta.
    destruct (preprocess task inputData ∅ (self w)) as [[[pre|e] s] ls].
    2: { exists st. exact Hl. }
    destruct (inferenceAdapter s) as [l0|].
    2: { exists st. rewrite bool_decide_eq_false_2 by discriminate. exact Hl. }
    destruct (decide (l0 = l)) as [->|Hne].
    + rewrite bool_decide_eq_true_2 by reflexivity. rewrite Hl.
      unfold counting, InferenceAdapter.infer at 1. cbn [fst snd].
      destruct (InferenceAdapter.infer adapters (snd pre) st) as [[out|e] a'].
      2: { exists a'. apply lookup_insert_eq. }
      destruct (postprocess task _ s) as [[res s2] ls2].
      exists a'. apply lookup_insert_eq.
    + rewrite bool_decide_eq_false_2 by congruence.
      destruct (heap w !! l0) as [[a0 n0]|].
      2: { exists st. exact Hl. }
      unfold counting, InferenceAdapter.infer at 1. cbn [fst snd].
      destruct (InferenceAdapter.infer adapters (snd pre) a0) as [[out|e] a'].
      2: { exists st. cbn [snd heap]. rewrite lookup_insert_ne by exact Hne.
           exact Hl. }
      destruct (postprocess task _ s) as [[res s2] ls2].
      exists st. cbn [snd heap]. rewrite lookup_insert_ne by exact Hne.
      exact Hl.
Qed.

(** ** The properties at the concrete instance *)

Lemma getInputLayout_annotated_witness :
  empty (get_layout demo_annotated_input) = false
  /\ getInputLayout demo_runtime demo_annotated_input
       (demo_world two_layouts "net.xml")
     = (Ok NHWC, demo_world two_layouts "net.xml").
Proof.
  split; [reflexivity|].
  apply (getInputLayout_annotated demo_runtime demo_annotated_input
           (demo_world two_layouts "net.xml")).
  reflexivity.
Defined.

Lemma getInputLayout_autodetect_witness :
  let w := demo_world ∅ "net.xml" in
  let r := getInputLayout demo_runtime (demo_input "data") w in
  fst r = Ok NCHW
  /\ log (snd r) =
       [Slog.Line Slog.warn
          "Automatically detected layout 'N,C,H,W' for input 'data' will be used."]
  /\ length (List.filter Slog.is_warn (log (snd r))) = 1.
Proof.
  intros w r.
  destruct (getInputLayout_autodetect demo_runtime (demo_input "data") w)
    as [Heq Hcount]; [reflexivity|reflexivity|].
  subst r. split; [rewrite Heq; reflexivity|].
  split; [rewrite Heq; reflexivity|exact Hcount].
Defined.

Lemma getInputLayout_single_entry_witness :
  let w := demo_world {["other" := NHWC]} "net.xml" in
  size (inputsLayouts (self w)) = 1
  /\ inputsLayouts (self w) !! "data" = None
  /\ getInputLayout demo_runtime (demo_input "data") w = (Ok NHWC, w).
Proof.
  intros w. split; [reflexivity|]. split; [reflexivity|].
  apply (getInputLayout_single_entry demo_runtime (demo_input "data") w
           "other" NHWC); reflexivity.
Defined.

Lemma getInputLayout_unlisted_returns_default_witness :
  let w := demo_world two_layouts "net.xml" in
  inputsLayouts (self w) !! "c" = None
  /\ fst (getInputLayout demo_runtime (demo_input "c") w) = Ok Layout_default.
Proof.
  intros w. split; [reflexivity|].
  apply (getInputLayout_unlisted_returns_default demo_runtime
           (demo_input "c") w); [reflexivity|vm_compute; lia|reflexivity].
Defined.

(** C1 as stated fails: two entries, none for "c", and the call returns
    instead of failing with [UndefinedLayoutError]. *)
Lemma getInputLayout_unlisted_is_no_error :
  let input := demo_input "c" in
  let w := demo_world two_layouts "net.xml" in
  empty (get_layout input) = true
  /\ 2 <= size (inputsLayouts (self w))
  /\ inputsLayouts (self w) !! get_any_name input = None
  /\ fst (getInputLayout demo_runtime input w) = Ok Layout_default
  /\ fst (getInputLayout demo_runtime input w) <> Throw UndefinedLayoutError.
Proof.
  intros input w. split; [reflexivity|]. split; [vm_compute; lia|].
  split; [reflexivity|]. split; [reflexivity|].
  vm_compute. discriminate.
Qed.

Lemma getInputLayout_unlisted_grows_inputsLayouts_witness :
  let w := demo_world two_layouts "net.xml" in
  let w' := snd (getInputLayout demo_runtime (demo_input "c") w) in
  size (inputsLayouts (self w)) = 2
  /\ size (inputsLayouts (self w')) = 3
  /\ inputsLayouts (self w') !! "c" = Some Layout_default.
Proof.
  intros w w'.
  destruct (getInputLayout_unlisted_grows_inputsLayouts demo_runtime
              (demo_input "c") w)
    as (_ & Hlookup & Hsize & _); [reflexivity|vm_compute; lia|reflexivity|].
  split; [reflexivity|]. split; [exact Hsize|exact Hlookup].
Defined.

Lemma getInputLayout_deterministic_witness :
  fst (getInputLayout demo_runtime (demo_input "a")
         (demo_world two_layouts "net.xml"))
  = fst (getInputLayout demo_runtime (demo_input "a")
           (demo_world two_layouts "other.xml")).
Proof.
  apply (getInputLayout_deterministic demo_runtime (demo_input "a")
           (demo_input "a") (demo_world two_layouts "net.xml")
           (demo_world two_layouts "other.xml")); reflexivity.
Defined.

(** C9 as stated fails: same shape, same (empty) annotation, same map, and two
    different layouts, because the names differ. *)
Lemma getInputLayout_depends_on_name :
  let i1 := demo_input "a" in
  let i2 := demo_input "b" in
  let w := demo_world two_layouts "net.xml" in
  get_shape i1 = get_shape i2
  /\ get_layout i1 = get_layout i2
  /\ fst (getInputLayout demo_runtime i1 w) = Ok NCHW
  /\ fst (getInputLayout demo_runtime i2 w) = Ok NHWC
  /\ fst (getInputLayout demo_runtime i1 w)
     <> fst (getInputLayout demo_runtime i2 w).
Proof.
  intros i1 i2 w. repeat (split; [reflexivity|]).
  vm_compute. discriminate.
Qed.

Lemma prepareModel_steps_in_order_witness :
  let r := prepareModel demo_runtime demo_adapters demo_task demo_ready in
  fst r = Ok tt
  /\ heap (snd r) !! 1%positive
     = Some (Some (set_batch (set_batch demo_model 4) 1))
  /\ exists ev : list Call,
       calls (snd r) = (calls demo_ready ++ ev)%list
       /\ ev = prepareModel_steps "net.xml" demo_model (set_batch demo_model 4)
                 1%positive {["PERFORMANCE_HINT" := "LATENCY"]}
       /\ forall l m d c, CallLoadModel l m d c ∈ ev ->
            get_batch m = 1%N /\ d = "AUTO".
Proof.
  intros r.
  destruct (prepareModel_steps_in_order demo_runtime demo_adapters demo_task
              demo_ready)
    as (ev & Hcalls & _ & Hbatch & _ & Hev & Hres & Hheap).
  split; [exact Hres|]. split.
  { fold r in Hheap. rewrite Hheap. reflexivity. }
  exists ev. split; [exact Hcalls|]. split; [exact Hev|exact Hbatch].
Defined.

Lemma load_read_failure_witness :
  let w := demo_world ∅ "missing.xml" in
  let r := load demo_runtime demo_adapters demo_task (Some 1%positive) w in
  read_model demo_runtime (modelFile (self w)) = Throw ModelReadError
  /\ fst r = Throw ModelReadError
  /\ inferenceAdapter (self (snd r)) = Some 1%positive
  /\ inputsLayouts (self (snd r)) = inputsLayouts (self w)
  /\ calls (snd r) = [CallReadModel "missing.xml"].
Proof.
  intros w r.
  destruct (load_read_failure demo_runtime demo_adapters demo_task
              (Some 1%positive) w)
    as (Hres & Hptr & _ & _ & Hlayouts & _ & _ & Hcalls); [reflexivity|].
  split; [reflexivity|]. split; [exact Hres|]. split; [exact Hptr|].
  split; [exact Hlayouts|exact Hcalls].
Defined.

(** C2 as stated fails: the file cannot be read, [load] fails with
    [ModelReadError], and the object is not as it was: the member
    [inferenceAdapter], null before the call, now holds the adapter. *)
Lemma load_read_failure_replaces_adapter :
  let w := demo_world ∅ "missing.xml" in
  let r := load demo_runtime demo_adapters demo_task (Some 1%positive) w in
  read_model demo_runtime (modelFile (self w)) = Throw ModelReadError
  /\ fst r = Throw ModelReadError
  /\ inferenceAdapter (self w) = None
  /\ inferenceAdapter (self (snd r)) = Some 1%positive
  /\ self (snd r) <> self w.
Proof.
  intros w r. repeat (split; [reflexivity|]).
  intros Heq. apply (f_equal inferenceAdapter) in Heq.
  vm_compute in Heq. discriminate.
Qed.

Lemma infer_single_adapter_call_witness :
  let r := infer demo_adapters demo_task 0%Z "cat.png" demo_loaded in
  let rc :=
    infer (counting demo_adapters) demo_task 0%Z "cat.png" demo_counted in
  (exists ev : list Call,
     calls (snd r) = (calls demo_loaded ++ ev)%list
     /\ length (List.filter is_adapter_infer ev) = 1
     /\ length ev = 3)
  /\ heap demo_counted !! 2%positive = Some (Some (set_batch (set_batch demo_model 4) 1), 0)
  /\ (exists st', heap (snd rc) !! 2%positive = Some (st', 1)).
Proof.
  intros r rc.
  destruct (infer_single_adapter_call demo_adapters demo_task 0%Z "cat.png")
    as [Hrun _].
  destruct (infer_single_adapter_call demo_adapters demo_task 0%Z "cat.png")
    as [_ Hcount].
  split.
  - destruct (Hrun demo_loaded) as (ev & Hcalls & _ & l & _ & _ & Hev & _).
    exists ev. split; [exact Hcalls|]. rewrite Hev. split; reflexivity.
  - split; [reflexivity|].
    exact (Hcount demo_counted 2%positive
             (Some (set_batch (set_batch demo_model 4) 1)) 0 eq_refl).
Defined.

(** C7 as stated fails: on input data that [preprocess] rejects, [infer]
    makes no call to the adapter at all: no adapter call is recorded, the
    adapter objects are as they were, and a counting adapter still shows 0. *)
Lemma infer_preprocess_failure_no_adapter_call :
  let r := infer demo_adapters demo_task 0%Z "" demo_loaded in
  let rc := infer (counting demo_adapters) demo_task 0%Z "" demo_counted in
  fst r = Throw PreprocessError
  /\ calls (snd r) = (calls demo_loaded ++ [CallPreprocess ""])%list
  /\ heap (snd r) = heap demo_loaded
  /\ heap demo_counted !! 2%positive
     = Some (Some (set_batch (set_batch demo_model 4) 1), 0)
  /\ heap (snd rc) !! 2%positive
     = Some (Some (set_batch (set_batch demo_model 4) 1), 0)
  /\ forall ev : list Call,
       calls (snd r) = (calls demo_loaded ++ ev)%list ->
       length (List.filter is_adapter_infer ev) <> 1.
Proof.
  intros r rc.
  assert (Hcalls : calls (snd r)
                   = (calls demo_loaded ++ [CallPreprocess ""])%list)
    by reflexivity.
  split; [reflexivity|]. split; [exact Hcalls|]. split; [reflexivity|].
  split; [reflexivity|]. split; [reflexivity|].
  intros ev Hev. rewrite Hcalls in Hev. apply app_inv_head in Hev.
  subst ev. simpl. discriminate.
Qed.

Lemma load_infer_result_from_postprocess_witness :
  load demo_runtime demo_adapters demo_task None (demo_world ∅ "net.xml")
    = (Ok tt, demo_loaded)
  /\ infer demo_adapters demo_task 0%Z "cat.png" demo_loaded
     = (Ok demo_result,
        snd (infer demo_adapters demo_task 0%Z "cat.png" demo_loaded))
  /\ exists (retVal : @ResultObject Z (list nat))
            (result' : @InferenceResult nat Z),
       demo_result = assign_base retVal result'
       /\ derived demo_result = derived retVal
       /\ base demo_result = result_base result'.
Proof.
  assert (Hload : load demo_runtime demo_adapters demo_task None
                    (demo_world ∅ "net.xml") = (Ok tt, demo_loaded))
    by (vm_compute; reflexivity).
  assert (Hinfer : infer demo_adapters demo_task 0%Z "cat.png" demo_loaded
                   = (Ok demo_result,
                      snd (infer demo_adapters demo_task 0%Z "cat.png"
                             demo_loaded)))
    by (vm_compute; reflexivity).
  split; [exact Hload|]. split; [exact Hinfer|].
  destruct (load_infer_result_from_postprocess demo_runtime demo_adapters
              demo_task 0%Z None "cat.png" _ _ _ demo_result Hload Hinfer)
    as (imd & tensors & s1 & ls1 & a & a' & out & retVal & result' & s2 & ls2
        & _ & _ & _ & _ & Hres & Hder & Hbase).
  exists retVal, result'. split; [exact Hres|]. split; [exact Hder|exact Hbase].
Defined.

(** ** The further properties at the concrete instance *)

Lemma getInputLayout_listed_name_witness :
  let w := demo_world two_layouts "net.xml" in
  inputsLayouts (self w) !! "b" = Some NHWC
  /\ getInputLayout demo_runtime (demo_input "b") w = (Ok NHWC, w).
Proof.
  intros w. split; [reflexivity|].
  apply (getInputLayout_listed_name demo_runtime (demo_input "b") w NHWC);
    [reflexivity|vm_compute; lia|reflexivity].
Defined.

Lemma getInputLayout_changes_fields_iff_witness :
  let w := demo_world two_layouts "net.xml" in
  self (snd (getInputLayout demo_runtime (demo_input "c") w)) <> self w
  /\ ~ self (snd (getInputLayout demo_runtime (demo_input "a") w)) <> self w.
Proof.
  intros w. split.
  - apply (getInputLayout_changes_fields_iff demo_runtime (demo_input "c") w).
    split; [reflexivity|]. split; [vm_compute; lia|reflexivity].
  - intros H.
    apply (getInputLayout_changes_fields_iff demo_runtime (demo_input "a") w)
      in H.
    destruct H as (_ & _ & H). vm_compute in H. discriminate.
Defined.

Lemma getInputLayout_logs_iff_witness :
  log (snd (getInputLayout demo_runtime (demo_input "data")
              (demo_world ∅ "net.xml")))
  <> log (demo_world ∅ "net.xml").
Proof.
  apply (getInputLayout_logs_iff demo_runtime (demo_input "data")
           (demo_world ∅ "net.xml")).
  split; reflexivity.
Defined.

Lemma load_success_adapter_live_witness :
  load demo_runtime demo_adapters demo_task None (demo_world ∅ "net.xml")
    = (Ok tt, demo_loaded)
  /\ exists l a,
       inferenceAdapter (self demo_loaded) = Some l
       /\ heap demo_loaded !! l = Some a.
Proof.
  assert (Hload : load demo_runtime demo_adapters demo_task None
                    (demo_world ∅ "net.xml") = (Ok tt, demo_loaded))
    by (vm_compute; reflexivity).
  split; [exact Hload|].
  exact (load_success_adapter_live demo_runtime demo_adapters demo_task None
           (demo_world ∅ "net.xml") demo_loaded Hload).
Defined.

Lemma load_other_adapters_untouched_witness :
  let w := demo_world ∅ "net.xml" in
  let r := load demo_runtime demo_adapters demo_task None w in
  inferenceAdapter (self w) = None
  /\ inferenceAdapter (self (snd r)) = Some 2%positive
  /\ heap (snd r) !! 1%positive = heap w !! 1%positive.
Proof.
  intros w r. split; [reflexivity|]. split; [reflexivity|].
  apply (load_other_adapters_untouched demo_runtime demo_adapters demo_task
           None w 1%positive).
  - apply elem_of_dom. exists None. reflexivity.
  - discriminate.
  - discriminate.
  - vm_compute. discriminate.
Defined.

Lemma prepareModel_compile_failure_witness :
  let r := prepareModel demo_runtime rejecting_adapters demo_task demo_ready in
  heap demo_ready !! 1%positive = Some None
  /\ fst r = Throw CompilationError
  /\ inferenceAdapter (self (snd r)) = Some 1%positive
  /\ heap (snd r) =
       <[1%positive := Some (set_batch (set_batch demo_model 4) 1)]>
         (heap demo_ready).
Proof.
  intros r.
  destruct (prepareModel_compile_failure demo_runtime rejecting_adapters
              demo_task demo_ready demo_model (set_batch demo_model 4)
              (self demo_ready) [] 1%positive None
              (Some (set_batch (set_batch demo_model 4) 1)) CompilationError)
    as (Hres & Hself & Hheap); try reflexivity.
  split; [reflexivity|]. split; [exact Hres|].
  split; [fold r in Hself; rewrite Hself; reflexivity|exact Hheap].
Defined.

Lemma infer_error_origin_witness :
  fst (infer demo_adapters demo_task 0%Z "" demo_loaded) = Throw PreprocessError
  /\ exists s ls,
       preprocess demo_task "" ∅ (self demo_loaded)
       = (Throw PreprocessError, s, ls).
Proof.
  split; [reflexivity|].
  destruct (infer_error_origin demo_adapters demo_task 0%Z "" demo_loaded
              PreprocessError eq_refl)
    as [H|(pre & s & ls & H & _)]; [exact H|].
  vm_compute in H. discriminate.
Defined.

Lemma infer_null_adapter_witness :
  let w := demo_world ∅ "net.xml" in
  let r := infer demo_adapters demo_task 0%Z "cat.png" w in
  inferenceAdapter (self w) = None
  /\ fst r = Throw NullDereference
  /\ heap (snd r) = heap w.
Proof.
  intros w r.
  destruct (infer_null_adapter demo_adapters demo_task 0%Z "cat.png" w
              (Some 2, <["data" := demo_tensor]> ∅) (self w) [])
    as (Hres & _ & Hheap & _); try reflexivity.
  split; [reflexivity|]. split; [exact Hres|exact Hheap].
Defined.

Lemma infer_adapter_failure_witness :
  let r := infer demo_adapters demo_task 0%Z "cat.png" demo_ready in
  heap demo_ready !! 1%positive = Some None
  /\ fst r = Throw InferenceError
  /\ calls (snd r) =
       [CallPreprocess "cat.png";
        CallAdapterInfer 1%positive (<["data" := demo_tensor]> ∅)].
Proof.
  intros r.
  destruct (infer_adapter_failure demo_adapters demo_task 0%Z "cat.png"
              demo_ready (Some 2, <["data" := demo_tensor]> ∅)
              (self demo_ready) [] 1%positive None None InferenceError)
    as (Hres & _ & _ & Hcalls); try reflexivity.
  split; [reflexivity|]. split; [exact Hres|exact Hcalls].
Defined.

Lemma infer_base_is_default_witness :
  infer demo_adapters demo_task 0%Z "cat.png" demo_loaded
    = (Ok demo_result,
       snd (infer demo_adapters demo_task 0%Z "cat.png" demo_loaded))
  /\ base demo_result = 0%Z.
Proof.
  assert (Hinfer : infer demo_adapters demo_task 0%Z "cat.png" demo_loaded
                   = (Ok demo_result,
                      snd (infer demo_adapters demo_task 0%Z "cat.png"
                             demo_loaded)))
    by (vm_compute; reflexivity).
  split; [exact Hinfer|].
  apply (infer_base_is_default demo_adapters demo_task 0%Z "cat.png"
           demo_loaded
           (snd (infer demo_adapters demo_task 0%Z "cat.png" demo_loaded))
           demo_result); [|exact Hinfer].
  intros raw s post s' ls H. simpl in H. inversion H. reflexivity.
Defined.

Lemma load_then_infer_same_adapter_witness :
  let r := infer demo_adapters demo_task 0%Z "cat.png" demo_loaded in
  load demo_runtime demo_adapters demo_task None (demo_world ∅ "net.xml")
    = (Ok tt, demo_loaded)
  /\ exists m1 l a0 a1,
       inferenceAdapter (self demo_loaded) = Some l
       /\ InferenceAdapter.loadModel demo_adapters (set_batch m1 1) "AUTO"
            (compilationConfig (config (self demo_loaded))) a0 = (Ok tt, a1)
       /\ heap demo_loaded !! l = Some a1
       /\ heap (snd r) !! l
          = Some (snd (InferenceAdapter.infer demo_adapters
                         (<["data" := demo_tensor]> ∅) a1)).
Proof.
  intros r.
  assert (Hload : load demo_runtime demo_adapters demo_task None
                    (demo_world ∅ "net.xml") = (Ok tt, demo_loaded))
    by (vm_compute; reflexivity).
  split; [exact Hload|].
  destruct (load_then_infer_same_adapter demo_runtime demo_adapters demo_task
              0%Z None "cat.png" (demo_world ∅ "net.xml") demo_loaded
              (Some 2, <["data" := demo_tensor]> ∅) (self demo_loaded) []
              Hload eq_refl eq_refl)
    as (m0 & m1 & ls & l & a0 & a1 & _ & _ & Hp & _ & Hrun & Hheap1 & Hheap2).
  exists m1, l, a0, a1. split; [exact Hp|]. split; [exact Hrun|].
  split.
  - rewrite Hheap1. apply lookup_insert_eq.
  - fold r in Hheap2. rewrite Hheap2. apply lookup_insert_eq.
Defined.
